(** * TheGreenDrop: feature derivation, water balance and recharge metrics

    A shallow embedding of the numeric core of [api.py] (the [/predict]
    handler) and of [weather_service.py] (the recharge metrics of
    [IMDWeatherService]).

    Conventions of the embedding.
    - A Python value that arrives from JSON is a [pyval]; Python's dynamic
      typing is kept: every operator inspects the tags and raises what
      Python raises.
    - A Python [dict] is an insertion-ordered association list.
    - A Python [float] is an exact rational ([Q]): the development covers
      the arithmetic of the formulas; binary64 rounding, overflow to
      infinity and NaN are outside the model.  [int(x)] truncates toward
      zero, [round(x, n)] rounds half to even.
    - Exceptions are values of [exn]; code that can raise lives in the
      error monad [res].
    - The collaborators of the handler (weather lookup, trained models,
      database, and the builtin parser behind [float(str)]) are fields of
      an environment record. *)

From Stdlib Require Import ZArith QArith Qround Qminmax Lia Lqa List String Ascii Bool.
Import ListNotations.

Set Warnings "-register-all".
Local Open Scope string_scope.
Local Open Scope Z_scope.

(** ** Exceptions and the error monad *)

Inductive exn : Type :=
| TypeError
| ValueError
| KeyError (key : string)
| ZeroDivisionError
| AttributeError
| CollaboratorError (what : string).

Inductive res (A : Type) : Type :=
| Ok (a : A)
| Raise (e : exn).

Arguments Ok {A} a.
Arguments Raise {A} e.

Definition bind {A B : Type} (c : res A) (k : A -> res B) : res B :=
  match c with
  | Ok a => k a
  | Raise e => Raise e
  end.

Notation "x <- c ;; k" := (bind c (fun x => k))
  (at level 61, c at next level, right associativity).
Notation "' pat <- c ;; k" := (bind c (fun x => match x with pat => k end))
  (at level 61, pat pattern, c at next level, right associativity).

(** ** Python values *)

Inductive pyval : Type :=
| PNone
| PBool (b : bool)
| PInt (z : Z)
| PFloat (q : Q)
| PStr (s : string)
| PList (l : list pyval)
| PDict (d : list (string * pyval)).

(** ** Dictionaries *)

Definition dict (A : Type) : Type := list (string * A).

Fixpoint dict_get {A : Type} (d : dict A) (k : string) : option A :=
  match d with
  | [] => None
  | (k', v) :: d' => if String.eqb k' k then Some v else dict_get d' k
  end.

(** [d[k] = v]: replaces the value in place, or appends a new entry. *)
Fixpoint dict_set {A : Type} (d : dict A) (k : string) (v : A) : dict A :=
  match d with
  | [] => [(k, v)]
  | (k', v') :: d' =>
      if String.eqb k' k then (k', v) :: d' else (k', v') :: dict_set d' k v
  end.

(** [d[k]]: raises [KeyError]. *)
Definition dict_index {A : Type} (d : dict A) (k : string) : res A :=
  match dict_get d k with
  | Some v => Ok v
  | None => Raise (KeyError k)
  end.

(** [d.get(k, dflt)]. *)
Definition get_or (d : dict pyval) (k : string) (dflt : pyval) : pyval :=
  match dict_get d k with
  | Some v => v
  | None => dflt
  end.

(** [d.get(k)]. *)
Definition get (d : dict pyval) (k : string) : pyval := get_or d k PNone.

(** [k in d]. *)
Definition dict_mem {A : Type} (d : dict A) (k : string) : bool :=
  match dict_get d k with Some _ => true | None => false end.


(** ** Numbers *)

(** The numeric tower: [bool] counts as [int]. *)
Inductive num : Type :=
| NInt (z : Z)
| NFloat (q : Q).

Definition as_num (v : pyval) : option num :=
  match v with
  | PBool b => Some (NInt (if b then 1 else 0))
  | PInt z => Some (NInt z)
  | PFloat q => Some (NFloat q)
  | _ => None
  end.

Definition num_Q (n : num) : Q :=
  match n with
  | NInt z => inject_Z z
  | NFloat q => q
  end.

(** The rational a numeric value denotes. *)
Definition as_Q (v : pyval) : option Q := option_map num_Q (as_num v).

Definition Qltb (x y : Q) : bool := negb (Qle_bool y x).

(** Truncation toward zero, Python's [int(x)] on a float. *)
Definition Qtrunc (q : Q) : Z := Z.quot (Qnum q) (Zpos (Qden q)).

(** Round half to even to an integer. *)
Definition Qround_half_even (q : Q) : Z :=
  let f := Qfloor q in
  let d := (q - inject_Z f)%Q in
  match (d ?= 1 # 2)%Q with
  | Lt => f
  | Gt => f + 1
  | Eq => if Z.even f then f else f + 1
  end.

(** [round(x, ndigits)] on a float, [ndigits >= 0]. *)
Definition Qround_digits (q : Q) (ndigits : nat) : Q :=
  let scale := Z.pow_pos 10 (Pos.of_nat ndigits) in
  match ndigits with
  | O => inject_Z (Qround_half_even q)
  | S _ => Qmake (Qround_half_even (q * inject_Z scale)) (Z.to_pos scale)
  end.

(** ** Builtins and operators *)

Section Builtins.

(** The parser behind [float(s)] for a string [s]: [None] when Python
    raises [ValueError]. *)
Variable float_of_string : string -> option Q.

(** [float(v)]. *)
Definition py_float (v : pyval) : res Q :=
  match v with
  | PBool b => Ok (if b then 1 else 0)%Q
  | PInt z => Ok (inject_Z z)
  | PFloat q => Ok q
  | PStr s =>
      match float_of_string s with
      | Some q => Ok q
      | None => Raise ValueError
      end
  | PNone | PList _ | PDict _ => Raise TypeError
  end.

End Builtins.

(** Repetition of a sequence, [s * n]. *)
Fixpoint str_repeat (s : string) (n : nat) : string :=
  match n with
  | O => EmptyString
  | S n' => s ++ str_repeat s n'
  end.

Fixpoint list_repeat {A : Type} (l : list A) (n : nat) : list A :=
  match n with
  | O => []
  | S n' => l ++ list_repeat l n'
  end.

Definition as_int (v : pyval) : option Z :=
  match as_num v with
  | Some (NInt z) => Some z
  | _ => None
  end.

(** Arithmetic on two numbers: [int op int] stays an [int], anything with
    a float is a float. *)
Definition num_arith (fz : Z -> Z -> Z) (fq : Q -> Q -> Q) (x y : num) : pyval :=
  match x, y with
  | NInt a, NInt b => PInt (fz a b)
  | _, _ => PFloat (fq (num_Q x) (num_Q y))
  end.

(** [a + b]. *)
Definition py_add (a b : pyval) : res pyval :=
  match as_num a, as_num b with
  | Some x, Some y => Ok (num_arith Z.add Qplus x y)
  | _, _ =>
      match a, b with
      | PStr s, PStr t => Ok (PStr (s ++ t))
      | PList l, PList m => Ok (PList (l ++ m))
      | _, _ => Raise TypeError
      end
  end.

(** [a - b]. *)
Definition py_sub (a b : pyval) : res pyval :=
  match as_num a, as_num b with
  | Some x, Some y => Ok (num_arith Z.sub Qminus x y)
  | _, _ => Raise TypeError
  end.

(** [a * b]; a sequence times an [int] is repeated. *)
Definition py_mul (a b : pyval) : res pyval :=
  match as_num a, as_num b with
  | Some x, Some y => Ok (num_arith Z.mul Qmult x y)
  | _, _ =>
      match a, as_int b, as_int a, b with
      | PStr s, Some n, _, _ => Ok (PStr (str_repeat s (Z.to_nat n)))
      | PList l, Some n, _, _ => Ok (PList (list_repeat l (Z.to_nat n)))
      | _, _, Some n, PStr s => Ok (PStr (str_repeat s (Z.to_nat n)))
      | _, _, Some n, PList l => Ok (PList (list_repeat l (Z.to_nat n)))
      | _, _, _, _ => Raise TypeError
      end
  end.

(** [a / b]: true division, always a float. *)
Definition py_truediv (a b : pyval) : res pyval :=
  match as_num a, as_num b with
  | Some x, Some y =>
      if Qeq_bool (num_Q y) 0 then Raise ZeroDivisionError
      else Ok (PFloat (num_Q x / num_Q y))
  | _, _ => Raise TypeError
  end.

(** Ordering.  Every comparison of this program has a number on one
    side; against a number Python orders numbers and raises [TypeError]
    for everything else. *)
Definition py_lt (a b : pyval) : res bool :=
  match as_num a, as_num b with
  | Some x, Some y => Ok (Qltb (num_Q x) (num_Q y))
  | _, _ => Raise TypeError
  end.

Definition py_gt (a b : pyval) : res bool := py_lt b a.

(** [a == n] for a number [n]: never raises, and is false for a value
    that is not a number. *)
Definition py_eq_num (a : pyval) (n : num) : bool :=
  match as_num a with
  | Some x => Qeq_bool (num_Q x) (num_Q n)
  | None => false
  end.

(** [min(a, b)] and [max(a, b)] keep the first argument on a tie. *)
Definition py_min (a b : pyval) : res pyval :=
  lt <- py_lt b a ;; Ok (if lt then b else a).

Definition py_max (a b : pyval) : res pyval :=
  gt <- py_gt b a ;; Ok (if gt then b else a).

(** [int(v)], applied here to results of arithmetic only. *)
Definition py_int (v : pyval) : res Z :=
  match as_num v with
  | Some (NInt z) => Ok z
  | Some (NFloat q) => Ok (Qtrunc q)
  | None => Raise TypeError
  end.

(** [round(v, ndigits)]. *)
Definition py_round (v : pyval) (ndigits : nat) : res pyval :=
  match as_num v with
  | Some (NInt z) => Ok (PInt z)
  | Some (NFloat q) => Ok (PFloat (Qround_digits q ndigits))
  | None => Raise TypeError
  end.

(** [x in l] for a list of [int]. *)
Definition in_months (m : Z) (l : list Z) : bool := existsb (Z.eqb m) l.

(** * [weather_service.py]: recharge metrics *)

(** [IMDWeatherService._calculate_seasonality].  [current_month] is the
    value of [datetime.now().month], read from the system clock. *)
Definition _calculate_seasonality (current_month : Z) (data : dict pyval)
  : dict pyval :=
  let monsoon_months := [6; 7; 8; 9] in
  let pre_monsoon := [3; 4; 5] in
  let post_monsoon := [10; 11] in
  let '(season, recharge_factor) :=
    if in_months current_month monsoon_months then ("Monsoon", 1.5%Q)
    else if in_months current_month pre_monsoon then ("Pre-Monsoon", 0.8%Q)
    else if in_months current_month post_monsoon then ("Post-Monsoon", 1.2%Q)
    else ("Winter", 0.5%Q) in
  [ ("current_season", PStr season);
    ("recharge_factor", PFloat recharge_factor);
    ("seasonal_rainfall_adjustment", PFloat recharge_factor) ].

(** [IMDWeatherService._calculate_monsoon_intensity]. *)
Definition _calculate_monsoon_intensity (data : dict pyval) : dict pyval :=
  let annual_rainfall := get_or data "annual_rainfall_mm" (PInt 1200) in
  let max_daily := get_or data "max_daily_rainfall_mm" (PInt 50) in
  let classified :=
    c1 <- py_gt annual_rainfall (PInt 2000) ;;
    if c1 then Ok ("Very High", 0.9%Q) else
    c2 <- py_gt annual_rainfall (PInt 1500) ;;
    if c2 then Ok ("High", 0.7%Q) else
    c3 <- py_gt annual_rainfall (PInt 1000) ;;
    if c3 then Ok ("Moderate", 0.5%Q) else
    c4 <- py_gt annual_rainfall (PInt 500) ;;
    if c4 then Ok ("Low", 0.3%Q) else Ok ("Very Low", 0.1%Q) in
  match classified with
  | Ok (intensity, intensity_score) =>
      [ ("monsoon_intensity", PStr intensity);
        ("intensity_score", PFloat intensity_score);
        ("peak_rainfall_capacity", max_daily);
        ("annual_rainfall_classification", PStr intensity) ]
  | Raise _ =>
      [ ("monsoon_intensity", PStr "Unknown");
        ("intensity_score", PFloat 0.5) ]
  end.

(** The three numbers of [_calculate_recharge_metrics], before rounding:
    evaporation rate, infiltration potential, recharge efficiency. *)
Definition recharge_numbers (data : dict pyval) : res (pyval * pyval * pyval) :=
  let temp := get_or data "avg_temperature_c" (PInt 25) in
  let humidity := get_or data "current_humidity_percent" (PInt 70) in
  let wind_speed := get_or data "current_wind_speed_kmh" (PInt 10) in
  t10 <- py_sub temp (PInt 10) ;;
  dry <- py_sub (PInt 100) humidity ;;
  prod <- py_mul t10 dry ;;
  base <- py_truediv prod (PInt 1000) ;;
  w50 <- py_truediv wind_speed (PInt 50) ;;
  wind <- py_add (PInt 1) w50 ;;
  raw <- py_mul base wind ;;
  evaporation_rate <- py_max (PFloat 0.1) raw ;;
  let annual_rainfall := get_or data "annual_rainfall_mm" (PInt 1200) in
  share <- py_truediv annual_rainfall (PInt 2000) ;;
  infiltration_potential <- py_min (PFloat 1.0) share ;;
  e10 <- py_truediv evaporation_rate (PInt 10) ;;
  kept <- py_sub (PInt 1) e10 ;;
  recharge_efficiency <- py_mul infiltration_potential kept ;;
  Ok (evaporation_rate, infiltration_potential, recharge_efficiency).

(** [IMDWeatherService._calculate_recharge_metrics]: any exception gives
    the empty dictionary. *)
Definition _calculate_recharge_metrics (current_month : Z) (data : dict pyval)
  : dict pyval :=
  let body :=
    '(evaporation_rate, infiltration_potential, recharge_efficiency) <-
       recharge_numbers data ;;
    r1 <- py_round evaporation_rate 2 ;;
    r2 <- py_round infiltration_potential 3 ;;
    r3 <- py_round recharge_efficiency 3 ;;
    Ok [ ("evaporation_rate_mmday", r1);
         ("infiltration_potential", r2);
         ("recharge_efficiency", r3);
         ("recharge_seasonality", PDict (_calculate_seasonality current_month data));
         ("monsoon_intensity", PDict (_calculate_monsoon_intensity data)) ] in
  match body with
  | Ok metrics => metrics
  | Raise _ => []
  end.

(** * [api.py]: the [/predict] handler *)

(** The collaborators of the handler. *)
Record environment : Type := {
  (** the parser behind the builtin [float(str)] *)
  float_of_string : string -> option Q;
  (** [weather_service.get_comprehensive_weather_data(latitude, longitude)];
      it catches its own failures and always returns a dictionary *)
  get_comprehensive_weather_data : pyval -> pyval -> dict pyval;
  (** encoding, scaling and the three trained models, on the feature
      dictionary: category, score, recommended structure *)
  predict_models : dict pyval -> res (pyval * Q * pyval);
  (** [db_manager.save_prediction] *)
  save_prediction : dict pyval -> res pyval
}.

(** The part of the JSON response that carries numbers; the formatted
    texts ([recommendations], [summary]) are left out. *)
Record response : Type := {
  feasibility_category : pyval;
  feasibility_score : Q;
  recommended_structure : pyval;
  recommended_tank_capacity_liters : Z;
  monthly_storage_requirements : dict Z;
  monthly_harvestable : dict Z;
  weather_data : dict pyval;
  roof_efficiency : dict pyval;
  prediction_id : option pyval
}.

(** What the handler returns: the response with status 200, or the
    ["Prediction failed"] body with status 500 and the exception. *)
Inductive http_response : Type :=
| Http200 (body : response)
| Http500 (message : exn).

Definition numeric_features : list string :=
  [ "annual_rainfall_mm"; "max_daily_rainfall_mm"; "rainy_days_count";
    "avg_temperature_c"; "evaporation_rate_mmday"; "clay_pct"; "sand_pct";
    "silt_pct"; "latitude"; "longitude"; "elevation_m"; "roof_area_m2";
    "available_space_m2"; "infiltration_rate_mmhr"; "runoff_coefficient";
    "annual_runoff_m3" ].

Definition daily_usage : Z := 800.
Definition monsoon_days : Z := 90.

Definition monthly_rainfall_distribution : dict Q :=
  [ ("January", 0.01); ("February", 0.01); ("March", 0.02); ("April", 0.03);
    ("May", 0.05); ("June", 0.15); ("July", 0.25); ("August", 0.20);
    ("September", 0.15); ("October", 0.08); ("November", 0.03);
    ("December", 0.02) ]%Q.

Definition days_in_month : dict Z :=
  [ ("January", 31); ("February", 28); ("March", 31); ("April", 30);
    ("May", 31); ("June", 30); ("July", 31); ("August", 31);
    ("September", 30); ("October", 31); ("November", 30); ("December", 31) ].

(** A [for] loop whose body can raise. *)
Fixpoint for_each {A St : Type} (body : St -> A -> res St) (l : list A)
    (s : St) : res St :=
  match l with
  | [] => Ok s
  | x :: l' => s' <- body s x ;; for_each body l' s'
  end.

Section Predict.

Variable env : environment.

(** Lines 55-73: the feature dictionary as first written.  The entries
    are evaluated in order; [float] around the runoff coefficient stands
    before the coercion loop and outside its [try]. *)
Definition initial_features (data weather : dict pyval)
    (latitude longitude roof_type roof_area available_space : pyval)
  : res (dict pyval) :=
  annual_rainfall_mm <- dict_index weather "annual_rainfall_mm" ;;
  max_daily_rainfall_mm <- dict_index weather "max_daily_rainfall_mm" ;;
  rainy_days_count <- dict_index weather "rainy_days_count" ;;
  avg_temperature_c <- dict_index weather "avg_temperature_c" ;;
  evaporation_rate_mmday <- dict_index weather "evaporation_rate_mmday" ;;
  runoff_coefficient <-
    py_float (float_of_string env)
      (get_or data "runoff_coefficient" (PFloat 0.8)) ;;
  Ok [ ("annual_rainfall_mm", annual_rainfall_mm);
       ("max_daily_rainfall_mm", max_daily_rainfall_mm);
       ("rainy_days_count", rainy_days_count);
       ("avg_temperature_c", avg_temperature_c);
       ("evaporation_rate_mmday", evaporation_rate_mmday);
       ("clay_pct", get_or data "clay_pct" (PInt 30));
       ("sand_pct", get_or data "sand_pct" (PInt 40));
       ("silt_pct", get_or data "silt_pct" (PInt 30));
       ("latitude", latitude);
       ("longitude", longitude);
       ("elevation_m", get_or data "elevation_m" (PInt 100));
       ("roof_area_m2", roof_area);
       ("available_space_m2", available_space);
       ("roof_type", roof_type);
       ("infiltration_rate_mmhr", get_or data "infiltration_rate_mmhr" (PInt 10));
       ("runoff_coefficient", PFloat runoff_coefficient);
       ("annual_runoff_m3", get_or data "annual_runoff_m3" (PInt 0)) ].

(** Lines 83-88: one turn of the coercion loop. *)
Definition coerce_feature (features : dict pyval) (feature : string)
  : res (dict pyval) :=
  if dict_mem features feature then
    v <- dict_index features feature ;;
    match py_float (float_of_string env) v with
    | Ok q => Ok (dict_set features feature (PFloat q))
    | Raise ValueError | Raise TypeError =>
        Ok (dict_set features feature (PFloat 0))
    | Raise e => Raise e
    end
  else Ok features.

(** Lines 82-88. *)
Definition coerce_numeric (features : dict pyval) : res (dict pyval) :=
  for_each coerce_feature numeric_features features.

(** Lines 91-97: the seven derived features. *)
Definition derived_features (features : dict pyval) : res (dict pyval) :=
  max_daily <- dict_index features "max_daily_rainfall_mm" ;;
  rainy <- dict_index features "rainy_days_count" ;;
  rainy1 <- py_add rainy (PInt 1) ;;
  rainfall_intensity <- py_truediv max_daily rainy1 ;;
  let features := dict_set features "rainfall_intensity" rainfall_intensity in
  clay <- dict_index features "clay_pct" ;;
  clay4 <- py_mul clay (PFloat 0.4) ;;
  silt <- dict_index features "silt_pct" ;;
  silt3 <- py_mul silt (PFloat 0.3) ;;
  cs <- py_add clay4 silt3 ;;
  sand <- dict_index features "sand_pct" ;;
  sand1 <- py_mul sand (PFloat 0.1) ;;
  soil_water_capacity <- py_add cs sand1 ;;
  let features := dict_set features "soil_water_capacity" soil_water_capacity in
  roof <- dict_index features "roof_area_m2" ;;
  space <- dict_index features "available_space_m2" ;;
  space1 <- py_add space (PInt 1) ;;
  roof_eff <- py_truediv roof space1 ;;
  let features := dict_set features "roof_efficiency" roof_eff in
  evap <- dict_index features "evaporation_rate_mmday" ;;
  rain <- dict_index features "annual_rainfall_mm" ;;
  daily <- py_truediv rain (PInt 365) ;;
  daily1 <- py_add daily (PFloat 0.1) ;;
  climate_aridity <- py_truediv evap daily1 ;;
  let features := dict_set features "climate_aridity" climate_aridity in
  rain <- dict_index features "annual_rainfall_mm" ;;
  roof <- dict_index features "roof_area_m2" ;;
  rr <- py_mul rain roof ;;
  rc <- dict_index features "runoff_coefficient" ;;
  rrc <- py_mul rr rc ;;
  harvest_potential <- py_truediv rrc (PInt 1000) ;;
  let features := dict_set features "harvest_potential" harvest_potential in
  temp <- dict_index features "avg_temperature_c" ;;
  temperature_factor <- py_truediv temp (PInt 30) ;;
  let features := dict_set features "temperature_factor" temperature_factor in
  elev <- dict_index features "elevation_m" ;;
  elevation_factor <- py_truediv elev (PInt 1000) ;;
  Ok (dict_set features "elevation_factor" elevation_factor).

(** Lines 100-102: the runoff is recomputed, from the roof area as it
    came in the request, when the feature is zero. *)
Definition annual_runoff (roof_area : pyval) (features : dict pyval)
  : res (dict pyval) :=
  given <- dict_index features "annual_runoff_m3" ;;
  if py_eq_num given (NInt 0) then
    rain <- dict_index features "annual_rainfall_mm" ;;
    annual_rainfall_m <- py_truediv rain (PInt 1000) ;;
    volume <- py_mul roof_area annual_rainfall_m ;;
    rc <- dict_index features "runoff_coefficient" ;;
    runoff <- py_mul volume rc ;;
    Ok (dict_set features "annual_runoff_m3" runoff)
  else Ok features.

(** Lines 105-106 and again 132-133: liters per year. *)
Definition annual_harvestable_liters (roof_area : pyval)
    (features : dict pyval) : res pyval :=
  rain <- dict_index features "annual_rainfall_mm" ;;
  annual_rainfall_m <- py_truediv rain (PInt 1000) ;;
  volume <- py_mul roof_area annual_rainfall_m ;;
  rc <- dict_index features "runoff_coefficient" ;;
  m3 <- py_mul volume rc ;;
  py_mul m3 (PInt 1000).

(** The Feature Deriver, lines 44-48 and 55-106, on the request and the
    weather record: the roof area as received and the feature
    dictionary handed to the models. *)
Definition feature_deriver (data weather : dict pyval)
  : res (pyval * dict pyval) :=
  let latitude := get data "latitude" in
  let longitude := get data "longitude" in
  let roof_type := get data "roof_type" in
  let roof_area := get data "roof_area_m2" in
  let available_space := get_or data "available_space_m2" roof_area in
  features <- initial_features data weather latitude longitude roof_type
                roof_area available_space ;;
  features <- coerce_numeric features ;;
  features <- derived_features features ;;
  features <- annual_runoff roof_area features ;;
  _ <- annual_harvestable_liters roof_area features ;;
  Ok (roof_area, features).

(** What the Water-Balance Calculator computes. *)
Record water_plan : Type := {
  annual_harvestable : pyval;
  plan_harvestable : dict Z;
  plan_storage : dict Z;
  tank_capacity : pyval
}.

(** Lines 166-179: one month of the loop over
    [monthly_rainfall_distribution.items()]. *)
Definition month_step (annual : pyval) (acc : dict Z * dict Z)
    (item : string * Q) : res (dict Z * dict Z) :=
  let '(harvest, storage) := acc in
  let '(month, percentage) := item in
  month_harvestable <- py_mul annual (PFloat percentage) ;;
  liters <- py_int month_harvestable ;;
  let harvest := dict_set harvest month liters in
  days <- dict_index days_in_month month ;;
  let monthly_usage := daily_usage * days in
  deficit <- py_sub (PInt monthly_usage) month_harvestable ;;
  storage_requirement <- py_max deficit (PInt 0) ;;
  buffered <- py_mul storage_requirement (PFloat 1.2) ;;
  needed <- py_int buffered ;;
  Ok (harvest, dict_set storage month needed).

(** The Water-Balance Calculator, lines 132-183. *)
Definition water_balance (roof_area : pyval) (features : dict pyval)
  : res water_plan :=
  annual <- annual_harvestable_liters roof_area features ;;
  '(harvest, storage) <-
    for_each (month_step annual) monthly_rainfall_distribution ([], []) ;;
  share <- py_mul annual (PFloat 0.3) ;;
  tank <- py_min share (PInt (daily_usage * monsoon_days)) ;;
  Ok {| annual_harvestable := annual;
        plan_harvestable := harvest;
        plan_storage := storage;
        tank_capacity := tank |}.

(** Lines 215-239: the database is written inside its own [try]; a
    failure only leaves [prediction_id] out. *)
Definition store_prediction (data weather : dict pyval) (roof_area : pyval)
    (category : pyval) (score : Q) (structure : pyval) (tank : Z)
  : option pyval :=
  let prediction_data :=
    [ ("user_id", get data "user_id");
      ("latitude", get data "latitude");
      ("longitude", get data "longitude");
      ("roof_area_m2", roof_area);
      ("roof_type", get data "roof_type");
      ("feasibility_category", category);
      ("feasibility_score", PFloat score);
      ("recommended_structure", structure);
      ("recommended_tank_capacity_liters", PInt tank);
      ("weather_data", PDict weather) ] in
  match save_prediction env prediction_data with
  | Ok id => Some id
  | Raise _ => None
  end.

(** The body of the handler's [try], lines 40-242. *)
Definition predict_body (request_json : pyval) : res response :=
  data <- match request_json with
          | PDict d => Ok d
          | _ => Raise AttributeError
          end ;;
  let weather :=
    get_comprehensive_weather_data env (get data "latitude")
      (get data "longitude") in
  '(roof_area, features) <- feature_deriver data weather ;;
  '(category, score, structure) <- predict_models env features ;;
  plan <- water_balance roof_area features ;;
  tank <- py_int (tank_capacity plan) ;;
  rc <- dict_index features "runoff_coefficient" ;;
  rain <- dict_index features "annual_rainfall_mm" ;;
  liters <- py_int (annual_harvestable plan) ;;
  Ok {| feasibility_category := category;
        feasibility_score := score;
        recommended_structure := structure;
        recommended_tank_capacity_liters := tank;
        monthly_storage_requirements := plan_storage plan;
        monthly_harvestable := plan_harvestable plan;
        weather_data := weather;
        roof_efficiency :=
          [ ("runoff_coefficient", rc);
            ("annual_rainfall_mm", rain);
            ("annual_harvestable_liters", PInt liters);
            ("recommended_tank_liters", PInt tank) ];
        prediction_id :=
          store_prediction data weather roof_area category score
            structure tank |}.

(** [predict], lines 38-249: every exception becomes status 500. *)
Definition predict (request_json : pyval) : http_response :=
  match predict_body request_json with
  | Ok body => Http200 body
  | Raise e => Http500 e
  end.

End Predict.

(** ** A concrete environment

    A parser for plain decimal numerals, a weather service that answers
    with its defaults, models that answer with a constant, and a database
    that numbers its rows. *)

Definition digit_of_ascii (c : ascii) : option Z :=
  let n := Z.of_nat (nat_of_ascii c) in
  if (48 <=? n) && (n <=? 57) then Some (n - 48) else None.

(** Digits up to the first other character: their value, how many there
    were, and the rest. *)
Fixpoint read_digits (s : string) (acc : Z) (count : nat)
  : Z * nat * string :=
  match s with
  | EmptyString => (acc, count, s)
  | String c s' =>
      match digit_of_ascii c with
      | Some d => read_digits s' (10 * acc + d) (S count)
      | None => (acc, count, s)
      end
  end.

Definition read_unsigned (s : string) : option Q :=
  let '(whole, n, rest) := read_digits s 0 O in
  match rest with
  | EmptyString => match n with O => None | S _ => Some (inject_Z whole) end
  | String "." frac =>
      let '(part, m, rest') := read_digits frac 0 O in
      match rest', (n + m)%nat with
      | EmptyString, S _ =>
          Some (inject_Z whole
                + Qmake part (Z.to_pos (Z.pow 10 (Z.of_nat m))))%Q
      | _, _ => None
      end
  | _ => None
  end.

Definition decimal_of_string (s : string) : option Q :=
  match s with
  | String "-" s' => option_map Qopp (read_unsigned s')
  | String "+" s' => read_unsigned s'
  | _ => read_unsigned s
  end.

(** [IMDWeatherService.default_weather]. *)
Definition default_weather : dict pyval :=
  [ ("annual_rainfall_mm", PInt 1200);
    ("max_daily_rainfall_mm", PInt 50);
    ("rainy_days_count", PInt 120);
    ("avg_temperature_c", PInt 25);
    ("evaporation_rate_mmday", PFloat 4.5);
    ("humidity_percent", PInt 70);
    ("wind_speed_kmh", PInt 10);
    ("pressure_hpa", PInt 1013);
    ("uv_index", PInt 5) ].

Definition sample_env (weather : dict pyval) : environment :=
  {| float_of_string := decimal_of_string;
     get_comprehensive_weather_data := fun _ _ => weather;
     predict_models := fun _ => Ok (PStr "Medium", 0.5%Q, PStr "Recharge Pit");
     save_prediction := fun _ => Ok (PInt 1) |}.


(** ** Quantities the statements below speak about *)

(** What the coercion loop of [predict] leaves in place of [v]:
    [float(v)], or [0.0] when that raises. *)
Definition coerced (env : environment) (v : pyval) : Q :=
  match py_float (float_of_string env) v with
  | Ok q => q
  | Raise _ => 0%Q
  end.

(** [roof_area * (annual_rainfall_mm / 1000) * runoff_coefficient * 1000]. *)
Definition annual_liters (roof rain rc : Q) : Q :=
  (roof * (rain / 1000) * rc * 1000)%Q.



(** The keys lines 91-97 add to the feature dictionary. *)
Definition derived_names : list string :=
  [ "rainfall_intensity"; "soil_water_capacity"; "roof_efficiency";
    "climate_aridity"; "harvest_potential"; "temperature_factor";
    "elevation_factor" ].

(** The liters a month yields and the storage it asks for, as the loop
    of [predict] computes them from the liters per year, the month's
    share and its number of days; and the tank. *)
Definition month_harvest (annual share : Q) : Z := Qtrunc (annual * share).

Definition month_storage (annual share : Q) (days : Z) : Z :=
  Qtrunc (Qmax (inject_Z (daily_usage * days) - annual * share) 0 * 1.2).


Definition days_of (month : string) : Z :=
  match dict_get days_in_month month with
  | Some days => days
  | None => 0
  end.


(** ** The formulas as the specification words them *)




(** ** Sample requests *)

Definition site_request (fields : dict pyval) : pyval :=
  PDict ([ ("latitude", PFloat 28.6); ("longitude", PFloat 77.2);
           ("roof_type", PStr "concrete") ] ++ fields).






Definition request_text_roof : pyval :=
  site_request [ ("roof_area_m2", PStr "100") ].

Definition request_bad_roof : pyval :=
  site_request [ ("roof_area_m2", PStr "large") ].

Definition request_bad_runoff : pyval :=
  site_request [ ("roof_area_m2", PInt 100); ("runoff_coefficient", PStr "high") ].

Definition request_bad_clay : pyval :=
  site_request [ ("roof_area_m2", PInt 100); ("clay_pct", PStr "a lot") ].


Definition rejected (r : http_response) : Prop := exists e, r = Http500 e.
Definition answered (r : http_response) : Prop := exists body, r = Http200 body.







(** Two environments whose collaborators give the same answers. *)
Definition same_answers (env env' : environment) : Prop :=
  (forall s, float_of_string env s = float_of_string env' s) /\
  (forall latitude longitude,
     get_comprehensive_weather_data env latitude longitude =
     get_comprehensive_weather_data env' latitude longitude) /\
  (forall fs, predict_models env fs = predict_models env' fs) /\
  (forall prediction_data,
     save_prediction env prediction_data = save_prediction env' prediction_data).

(** * Proofs *)

(** ** Dictionaries *)

Lemma dict_get_set_eq {A : Type} (d : dict A) (k : string) (v : A) :
  dict_get (dict_set d k v) k = Some v.
Proof.
  induction d as [|[k' v'] d IH]; simpl.
  - now rewrite String.eqb_refl.
  - destruct (String.eqb k' k) eqn:E; simpl; rewrite E; auto.
Qed.

Lemma dict_get_set_ne {A : Type} (d : dict A) (k k' : string) (v : A) :
  k <> k' -> dict_get (dict_set d k v) k' = dict_get d k'.
Proof.
  intros Hne. induction d as [|[k0 v0] d IH]; simpl.
  - destruct (String.eqb k k') eqn:E; auto.
    apply String.eqb_eq in E. contradiction.
  - destruct (String.eqb k0 k) eqn:E; simpl.
    + apply String.eqb_eq in E. subst k0.
      destruct (String.eqb k k') eqn:E'; auto.
      apply String.eqb_eq in E'. contradiction.
    + now rewrite IH.
Qed.



Lemma dict_index_ok {A : Type} (d : dict A) (k : string) (v : A) :
  dict_index d k = Ok v <-> dict_get d k = Some v.
Proof.
  unfold dict_index. destruct (dict_get d k); split; intros H;
    inversion H; auto.
Qed.

(** ** Rationals *)

Lemma Qtrunc_floor (q : Q) : (0 <= q)%Q -> Qtrunc q = Qfloor q.
Proof.
  destruct q as [n d]. unfold Qle, Qtrunc, Qfloor. simpl. intros H.
  apply Z.quot_div_nonneg; lia.
Qed.




Lemma Qltb_lt (x y : Q) : Qltb x y = true <-> (x < y)%Q.
Proof.
  unfold Qltb. rewrite negb_true_iff.
  destruct (Qle_bool y x) eqn:E.
  - apply Qle_bool_iff in E. split; [discriminate|].
    intros H. exfalso. apply (Qlt_not_le _ _ H E).
  - split; auto. intros _. apply Qnot_le_lt. intros H.
    apply Qle_bool_iff in H. congruence.
Qed.

Lemma Qltb_ge (x y : Q) : Qltb x y = false <-> (y <= x)%Q.
Proof.
  unfold Qltb. rewrite negb_false_iff. apply Qle_bool_iff.
Qed.

(** ** Operators on numbers *)

Lemma as_Q_num (v : pyval) (q : Q) :
  as_Q v = Some q -> exists n, as_num v = Some n /\ num_Q n = q.
Proof.
  unfold as_Q. destruct (as_num v) as [n|]; simpl; intros H; inversion H.
  now exists n.
Qed.

Lemma py_mul_num_float (v : pyval) (q x : Q) :
  as_Q v = Some q -> py_mul v (PFloat x) = Ok (PFloat (q * x)).
Proof.
  intros H. apply as_Q_num in H. destruct H as (n & Hn & <-).
  unfold py_mul. rewrite Hn. simpl. now destruct n.
Qed.

Lemma py_mul_not_num (v : pyval) (x : Q) :
  as_num v = None -> py_mul v (PFloat x) = Raise TypeError.
Proof.
  intros H. unfold py_mul, as_int. rewrite H. simpl. now destruct v.
Qed.

Lemma py_truediv_float (v w r : pyval) :
  py_truediv v w = Ok r -> exists q, r = PFloat q.
Proof.
  unfold py_truediv. destruct (as_num v), (as_num w); try discriminate.
  destruct (Qeq_bool _ _); intros H; inversion H. eauto.
Qed.

(** [float(v)] raises nothing but [ValueError] and [TypeError]. *)
Lemma py_float_raises (parse : string -> option Q) (v : pyval) (e : exn) :
  py_float parse v = Raise e -> e = ValueError \/ e = TypeError.
Proof.
  destruct v; simpl; try (intros H; inversion H; auto; fail).
  destruct (parse s); intros H; inversion H; auto.
Qed.

(** ** The coercion loop *)

Lemma coerce_feature_spec (env : environment) (fs : dict pyval) (k : string) :
  coerce_feature env fs k =
    Ok match dict_get fs k with
       | Some v => dict_set fs k (PFloat (coerced env v))
       | None => fs
       end.
Proof.
  unfold coerce_feature, dict_mem, dict_index, coerced.
  destruct (dict_get fs k) as [v|]; simpl; auto.
  destruct (py_float (float_of_string env) v) as [q|e] eqn:E; auto.
  apply py_float_raises in E. now destruct E as [-> | ->].
Qed.

Lemma coerce_loop_lookup (env : environment) (names : list string) :
  forall fs : dict pyval,
  exists fs',
    for_each (coerce_feature env) names fs = Ok fs' /\
    forall k,
      NoDup names ->
      dict_get fs' k =
        if existsb (String.eqb k) names
        then option_map (fun v => PFloat (coerced env v)) (dict_get fs k)
        else dict_get fs k.
Proof.
  induction names as [|n names IH]; intros fs; simpl.
  - exists fs. split; auto.
  - rewrite coerce_feature_spec. simpl.
    destruct (IH (match dict_get fs n with
                  | Some v => dict_set fs n (PFloat (coerced env v))
                  | None => fs
                  end)) as (fs' & Hrun & Hget).
    exists fs'. split; auto.
    intros k Hnd. inversion Hnd as [|? ? Hnotin Hnd']; subst.
    rewrite (Hget k Hnd').
    destruct (String.eqb k n) eqn:Ekn; simpl.
    + apply String.eqb_eq in Ekn. subst n.
      assert (Hk : existsb (String.eqb k) names = false).
      { destruct (existsb (String.eqb k) names) eqn:Ex; auto.
        apply existsb_exists in Ex. destruct Ex as (x & Hin & Hx).
        apply String.eqb_eq in Hx. subst x. contradiction. }
      rewrite Hk.
      destruct (dict_get fs k) as [v|] eqn:E; simpl.
      * now rewrite dict_get_set_eq.
      * now rewrite E.
    + assert (Hne : n <> k).
      { intros ->. rewrite String.eqb_refl in Ekn. discriminate. }
      assert (Hk : dict_get
                (match dict_get fs n with
                 | Some v => dict_set fs n (PFloat (coerced env v))
                 | None => fs
                 end) k = dict_get fs k).
      { destruct (dict_get fs n); auto. now apply dict_get_set_ne. }
      now rewrite Hk.
Qed.

Lemma numeric_features_NoDup : NoDup numeric_features.
Proof.
  unfold numeric_features.
  repeat (constructor; [simpl; intuition discriminate|]). constructor.
Qed.

(** The loop never raises, and replaces exactly the sixteen numeric
    entries. *)
Lemma coerce_numeric_lookup (env : environment) (fs : dict pyval) :
  exists fs',
    coerce_numeric env fs = Ok fs' /\
    forall k,
      dict_get fs' k =
        if existsb (String.eqb k) numeric_features
        then option_map (fun v => PFloat (coerced env v)) (dict_get fs k)
        else dict_get fs k.
Proof.
  destruct (coerce_loop_lookup env numeric_features fs) as (fs' & Hrun & Hget).
  exists fs'. split; auto.
  intros k. apply Hget, numeric_features_NoDup.
Qed.

(** ** The Feature Deriver *)

(** Case analysis on one [x <- c ;; k] of a hypothesis that says the
    whole computation returned. *)
Ltac bind_inv H :=
  match type of H with
  | bind ?c _ = Ok _ =>
      let E := fresh "E" in
      destruct c eqn:E; cbn [bind] in H; [|discriminate H]
  end.

Ltac key_ne := let H := fresh in intros H; discriminate H.

Lemma initial_features_inv (env : environment) (data weather : dict pyval)
    (latitude longitude roof_type roof_area available_space : pyval)
    (fs : dict pyval) :
  initial_features env data weather latitude longitude roof_type roof_area
    available_space = Ok fs ->
  exists rain0 rc,
    dict_get weather "annual_rainfall_mm" = Some rain0 /\
    py_float (float_of_string env)
      (get_or data "runoff_coefficient" (PFloat 0.8)) = Ok rc /\
    dict_get fs "annual_rainfall_mm" = Some rain0 /\
    dict_get fs "runoff_coefficient" = Some (PFloat rc) /\
    dict_get fs "roof_area_m2" = Some roof_area /\
    (forall k, existsb (String.eqb k) numeric_features = true ->
               dict_get fs k <> None).
Proof.
  unfold initial_features. intros H.
  do 6 bind_inv H. injection H as <-.
  match goal with
  | Hrain : dict_index weather "annual_rainfall_mm" = Ok ?rain0,
    Hrc : py_float _ _ = Ok ?rc |- _ =>
      apply dict_index_ok in Hrain; exists rain0, rc
  end.
  repeat split; auto.
  intros k Hk. unfold numeric_features in Hk. cbn [existsb] in Hk.
  repeat (apply orb_prop in Hk; destruct Hk as [Hk|Hk];
          [apply String.eqb_eq in Hk; subst k; discriminate|]).
  discriminate.
Qed.

Lemma not_in_derived (k : string) :
  ~ In k derived_names ->
  "rainfall_intensity" <> k /\ "soil_water_capacity" <> k /\
  "roof_efficiency" <> k /\ "climate_aridity" <> k /\
  "harvest_potential" <> k /\ "temperature_factor" <> k /\
  "elevation_factor" <> k.
Proof. unfold derived_names. simpl. intuition. Qed.

Lemma derived_features_inv (fs fs' : dict pyval) (x y z : Q) :
  derived_features fs = Ok fs' ->
  dict_get fs "annual_rainfall_mm" = Some (PFloat x) ->
  dict_get fs "roof_area_m2" = Some (PFloat y) ->
  dict_get fs "runoff_coefficient" = Some (PFloat z) ->
  dict_get fs' "harvest_potential" = Some (PFloat (x * y * z / 1000)) /\
  (forall k, ~ In k derived_names -> dict_get fs' k = dict_get fs k).
Proof.
  unfold derived_features. intros H Hx Hy Hz.
  repeat bind_inv H. injection H as <-.
  repeat match goal with
         | E : dict_index _ _ = Ok _ |- _ =>
             apply dict_index_ok in E;
             rewrite ?dict_get_set_ne in E by key_ne
         end.
  split.
  - rewrite dict_get_set_ne by key_ne. rewrite dict_get_set_ne by key_ne.
    rewrite dict_get_set_eq.
    repeat match goal with
           | E : dict_get fs "annual_rainfall_mm" = Some ?a |- _ =>
               rewrite Hx in E; injection E as <-
           | E : dict_get fs "roof_area_m2" = Some ?a |- _ =>
               rewrite Hy in E; injection E as <-
           | E : dict_get fs "runoff_coefficient" = Some ?a |- _ =>
               rewrite Hz in E; injection E as <-
           end.
    repeat match goal with
           | E : py_mul (PFloat _) (PFloat _) = Ok _ |- _ =>
               injection E as <-
           | E : py_truediv (PFloat _) (PInt 1000) = Ok _ |- _ =>
               injection E as <-
           end.
    reflexivity.
  - intros k Hk. apply not_in_derived in Hk.
    destruct Hk as (H1 & H2 & H3 & H4 & H5 & H6 & H7).
    now rewrite !dict_get_set_ne by assumption.
Qed.

Lemma annual_runoff_lookup (roof : pyval) (fs fs' : dict pyval) :
  annual_runoff roof fs = Ok fs' ->
  forall k, "annual_runoff_m3" <> k -> dict_get fs' k = dict_get fs k.
Proof.
  unfold annual_runoff. intros H k Hk.
  bind_inv H. destruct (py_eq_num a (NInt 0)).
  - repeat bind_inv H. injection H as <-. now apply dict_get_set_ne.
  - now injection H as <-.
Qed.

(** The liters per year, when the raw roof area is a number and the two
    features are floats. *)
Lemma annual_harvestable_liters_eval (roof : pyval) (fs : dict pyval)
    (q rain rc : Q) :
  as_Q roof = Some q ->
  dict_get fs "annual_rainfall_mm" = Some (PFloat rain) ->
  dict_get fs "runoff_coefficient" = Some (PFloat rc) ->
  annual_harvestable_liters roof fs = Ok (PFloat (annual_liters q rain rc)).
Proof.
  intros Hq Hrain Hrc. unfold annual_harvestable_liters, dict_index.
  rewrite Hrain, Hrc. cbn [bind].
  change (py_truediv (PFloat rain) (PInt 1000))
    with (Ok (A:=pyval) (PFloat (rain / 1000))).
  cbn [bind]. rewrite (py_mul_num_float roof q _ Hq). reflexivity.
Qed.

(** It raises, whatever the features, when the raw roof area is not a
    number. *)
Lemma annual_harvestable_liters_not_num (roof : pyval) (fs : dict pyval) :
  as_num roof = None ->
  exists e, annual_harvestable_liters roof fs = Raise e.
Proof.
  intros Hn. unfold annual_harvestable_liters.
  destruct (dict_index fs "annual_rainfall_mm") as [rain|e]; cbn [bind];
    [|eauto].
  destruct (py_truediv rain (PInt 1000)) as [m|e] eqn:E; cbn [bind];
    [|eauto].
  apply py_truediv_float in E. destruct E as (x & ->).
  rewrite (py_mul_not_num roof x Hn). cbn [bind]. eauto.
Qed.

Lemma as_Q_some (v : pyval) :
  as_num v <> None -> exists q, as_Q v = Some q.
Proof.
  unfold as_Q. destruct (as_num v) as [n|]; [|congruence].
  intros _. now exists (num_Q n).
Qed.

Lemma coerced_num (env : environment) (v : pyval) (q : Q) :
  as_Q v = Some q -> coerced env v = q.
Proof.
  unfold as_Q, coerced. destruct v; simpl; intros H; inversion H; auto.
  now destruct b.
Qed.

(** What a successful run of the Feature Deriver returns. *)
Lemma feature_deriver_inv (env : environment) (data weather : dict pyval)
    (roof : pyval) (fs : dict pyval) :
  feature_deriver env data weather = Ok (roof, fs) ->
  roof = get data "roof_area_m2" /\
  exists rain0 rc q,
    dict_get weather "annual_rainfall_mm" = Some rain0 /\
    py_float (float_of_string env)
      (get_or data "runoff_coefficient" (PFloat 0.8)) = Ok rc /\
    as_Q roof = Some q /\
    dict_get fs "annual_rainfall_mm" = Some (PFloat (coerced env rain0)) /\
    dict_get fs "runoff_coefficient" = Some (PFloat rc) /\
    dict_get fs "roof_area_m2" = Some (PFloat q) /\
    dict_get fs "harvest_potential" =
      Some (PFloat (coerced env rain0 * q * rc / 1000)).
Proof.
  unfold feature_deriver. intros H.
  bind_inv H. rename a into fs0.
  apply initial_features_inv in E.
  destruct E as (rain0 & rc & Hw & Hrc & H0rain & H0rc & H0roof & _).
  destruct (coerce_numeric_lookup env fs0) as (fs1 & Hrun & Hget).
  rewrite Hrun in H. cbn [bind] in H.
  pose proof (Hget "annual_rainfall_mm") as H1rain.
  pose proof (Hget "runoff_coefficient") as H1rc.
  pose proof (Hget "roof_area_m2") as H1roof.
  rewrite H0rain in H1rain. rewrite H0rc in H1rc. rewrite H0roof in H1roof.
  cbn in H1rain, H1rc, H1roof.
  bind_inv H. rename a into fs2.
  destruct (derived_features_inv _ _ _ _ _ E H1rain H1roof H1rc)
    as (H2hp & H2keep).
  bind_inv H. rename a into fs3.
  pose proof (annual_runoff_lookup _ _ _ E0) as H3.
  bind_inv H. injection H as <- <-.
  assert (Hnum : exists q, as_Q (get data "roof_area_m2") = Some q).
  { apply as_Q_some. intros Hn.
    destruct (annual_harvestable_liters_not_num _ fs3 Hn) as (e & He).
    congruence. }
  destruct Hnum as (q & Hq).
  split; auto. exists rain0, rc, q.
  rewrite (coerced_num env _ q Hq) in *.
  repeat split; auto.
  - rewrite H3 by key_ne. rewrite H2keep; auto.
    unfold derived_names. simpl. intuition discriminate.
  - rewrite H3 by key_ne. rewrite H2keep; auto.
    unfold derived_names. simpl. intuition discriminate.
  - rewrite H3 by key_ne. rewrite H2keep; auto.
    unfold derived_names. simpl. intuition discriminate.
  - rewrite H3 by key_ne. exact H2hp.
Qed.

(** ** The Water-Balance Calculator *)

Lemma Qmax_select (d : Q) :
  Qmax d 0 = if Qltb d 0 then 0%Q else d.
Proof.
  unfold Qmax, GenericMinMax.gmax.
  destruct (Qltb d 0) eqn:E; destruct (Qcompare d 0) eqn:C; auto.
  - apply Qltb_lt in E. apply Qeq_alt in C. rewrite C in E.
    exfalso. apply (Qlt_irrefl _ E).
  - apply Qltb_lt in E. apply Qgt_alt in C.
    exfalso. apply (Qlt_irrefl d). now apply Qlt_trans with 0%Q.
  - apply Qltb_ge in E. apply Qlt_alt in C.
    exfalso. apply (Qlt_not_le _ _ C E).
Qed.


Lemma month_step_eval (annual share : Q) (month : string)
    (harvest storage : dict Z) :
  month_step (PFloat annual) (harvest, storage) (month, share) =
    match dict_get days_in_month month with
    | Some days =>
        Ok (dict_set harvest month (month_harvest annual share),
            dict_set storage month (month_storage annual share days))
    | None => Raise (KeyError month)
    end.
Proof.
  unfold month_step, dict_index.
  destruct (dict_get days_in_month month) as [days|]; [|reflexivity].
  unfold month_storage. rewrite Qmax_select.
  cbn [bind py_mul as_num num_arith num_Q py_int py_sub py_max py_gt py_lt].
  destruct (Qltb _ _); reflexivity.
Qed.

(** The plan, when the raw roof area is a number and the two features
    are floats: the calculator does not raise. *)
Lemma water_balance_eval (roof : pyval) (fs : dict pyval) (q rain rc : Q) :
  as_Q roof = Some q ->
  dict_get fs "annual_rainfall_mm" = Some (PFloat rain) ->
  dict_get fs "runoff_coefficient" = Some (PFloat rc) ->
  let annual := annual_liters q rain rc in
  water_balance roof fs =
    Ok {| annual_harvestable := PFloat annual;
          plan_harvestable :=
            map (fun kv => (fst kv, month_harvest annual (snd kv)))
              monthly_rainfall_distribution;
          plan_storage :=
            map (fun kv =>
                   (fst kv, month_storage annual (snd kv) (days_of (fst kv))))
              monthly_rainfall_distribution;
          tank_capacity :=
            if Qltb (inject_Z (daily_usage * monsoon_days)) (annual * 0.3)
            then PInt (daily_usage * monsoon_days)
            else PFloat (annual * 0.3) |}.
Proof.
  intros Hq Hrain Hrc annual. unfold water_balance.
  rewrite (annual_harvestable_liters_eval roof fs q rain rc Hq Hrain Hrc).
  fold annual. cbn [bind]. unfold monthly_rainfall_distribution.
  cbn [for_each].
  repeat (rewrite month_step_eval;
          match goal with
          | |- context [dict_get days_in_month ?m] =>
              let r := eval vm_compute in (dict_get days_in_month m) in
              change (dict_get days_in_month m) with r
          end;
          cbn [bind]).
  cbn [py_mul as_num num_arith num_Q py_min py_lt bind].
  reflexivity.
Qed.

Lemma dict_get_map {A B : Type} (f : string -> A -> B) (d : dict A)
    (k : string) :
  dict_get (map (fun kv => (fst kv, f (fst kv) (snd kv))) d) k =
    option_map (f k) (dict_get d k).
Proof.
  induction d as [|[k' v] d IH]; simpl; auto.
  destruct (String.eqb k' k) eqn:E; auto.
  apply String.eqb_eq in E. now subst.
Qed.


(** ** The handler *)



(** ** When the handler answers *)






(** ** What the handler depends on *)

Lemma py_float_ext (f g : string -> option Q) (v : pyval) :
  (forall s, f s = g s) -> py_float f v = py_float g v.
Proof. intros H. destruct v; simpl; auto. now rewrite H. Qed.

Lemma for_each_ext {A St : Type} (body body' : St -> A -> res St)
    (l : list A) :
  (forall s x, body s x = body' s x) ->
  forall s, for_each body l s = for_each body' l s.
Proof.
  intros H. induction l as [|x l IH]; intros s; simpl; auto.
  rewrite H. destruct (body' s x); simpl; auto.
Qed.

Lemma coerce_feature_ext (env env' : environment) (fs : dict pyval)
    (k : string) :
  (forall s, float_of_string env s = float_of_string env' s) ->
  coerce_feature env fs k = coerce_feature env' fs k.
Proof.
  intros H. unfold coerce_feature.
  destruct (dict_mem fs k); auto.
  destruct (dict_index fs k) as [v|]; simpl; auto.
  now rewrite (py_float_ext _ _ v H).
Qed.

(** The Feature Deriver consults nothing but its two arguments and the
    parser of [float]. *)
Lemma feature_deriver_ext (env env' : environment) (data weather : dict pyval) :
  (forall s, float_of_string env s = float_of_string env' s) ->
  feature_deriver env data weather = feature_deriver env' data weather.
Proof.
  intros H. unfold feature_deriver.
  assert (E : forall la lo rt ra sp,
             initial_features env data weather la lo rt ra sp =
             initial_features env' data weather la lo rt ra sp).
  { intros. unfold initial_features. now rewrite (py_float_ext _ _ _ H). }
  rewrite E.
  destruct (initial_features env' data weather _ _ _ _ _) as [fs|];
    cbn [bind]; auto.
  unfold coerce_numeric.
  now rewrite (for_each_ext _ _ _
                 (fun s x => coerce_feature_ext env env' s x H)).
Qed.

(** The answer of the handler is fixed by the request and by the answers
    of its collaborators. *)
Lemma predict_ext (env env' : environment) (req : pyval) :
  same_answers env env' -> predict env req = predict env' req.
Proof.
  intros (Hf & Hw & Hm & Hs). unfold predict, predict_body.
  destruct req; cbn [bind]; auto.
  rewrite Hw. rewrite (feature_deriver_ext env env' _ _ Hf).
  destruct (feature_deriver env' d _) as [[roof fs]|]; cbn [bind]; auto.
  rewrite Hm.
  destruct (predict_models env' fs) as [[[category score] structure]|];
    cbn [bind]; auto.
  destruct (water_balance roof fs) as [plan|]; cbn [bind]; auto.
  destruct (py_int (tank_capacity plan)) as [tank|]; cbn [bind]; auto.
  destruct (dict_index fs "runoff_coefficient"); cbn [bind]; auto.
  destruct (dict_index fs "annual_rainfall_mm"); cbn [bind]; auto.
  destruct (py_int (annual_harvestable plan)); cbn [bind]; auto.
  unfold store_prediction. now rewrite Hs.
Qed.

(** ** Tank capacity (C1) *)







(** ** Monthly plan (C2) *)

Lemma Qmax0_nonneg (d : Q) : (0 <= Qmax d 0)%Q.
Proof. apply Q.le_max_r. Qed.

Lemma month_storage_floor (annual share : Q) (days : Z) :
  month_storage annual share days =
    Qfloor (Qmax (inject_Z (800 * days) - annual * share) 0 * 1.2).
Proof.
  unfold month_storage. apply Qtrunc_floor.
  apply Qmult_le_0_compat; [apply Qmax0_nonneg|discriminate].
Qed.



Lemma days_of_get (month : string) (days : Z) :
  dict_get days_in_month month = Some days -> days_of month = days.
Proof. unfold days_of. now intros ->. Qed.




(** ** Monthly harvest against the annual harvest (C3) *)







(** ** Roof area zero (C4) *)

Lemma Qtrunc_opp (x : Q) : Qtrunc (- x) = - Qtrunc x.
Proof. unfold Qtrunc. destruct x as [n d]. simpl. apply Z.quot_opp_l. discriminate. Qed.

Lemma Qtrunc_comp (x y : Q) : (x == y)%Q -> Qtrunc x = Qtrunc y.
Proof.
  intros E. destruct (Qlt_le_dec x 0) as [Hneg|Hpos].
  - assert (Hx : (0 <= - x)%Q) by lra.
    assert (Hy : (0 <= - y)%Q) by lra.
    assert (E' : (- x == - y)%Q) by lra.
    pose proof (Qtrunc_floor _ Hx) as Fx. pose proof (Qtrunc_floor _ Hy) as Fy.
    rewrite Qtrunc_opp in Fx, Fy. rewrite (Qfloor_comp _ _ E') in Fx. lia.
  - rewrite !Qtrunc_floor; [now apply Qfloor_comp|lra|lra].
Qed.

Lemma annual_liters_zero (roof rain rc : Q) :
  (roof == 0)%Q -> (annual_liters roof rain rc == 0)%Q.
Proof. intros E. unfold annual_liters. rewrite E. field. Qed.

Lemma month_harvest_zero (annual share : Q) :
  (annual == 0)%Q -> month_harvest annual share = 0.
Proof.
  intros E. unfold month_harvest.
  assert (E' : (annual * share == 0)%Q) by (rewrite E; ring).
  now rewrite (Qtrunc_comp _ _ E').
Qed.

Lemma month_storage_zero (annual share : Q) (days : Z) :
  (annual == 0)%Q -> 0 <= days ->
  month_storage annual share days = Qfloor (inject_Z (800 * days) * 1.2).
Proof.
  intros E Hd. rewrite month_storage_floor. apply Qfloor_comp.
  assert (Hu : (0 <= inject_Z (800 * days))%Q).
  { change 0%Q with (inject_Z 0). rewrite <- Zle_Qle. lia. }
  rewrite Q.max_l; [rewrite E; ring|]. rewrite E. lra.
Qed.

(** C4.  With a roof area of zero and float features, the Water-Balance
    Calculator returns: the annual harvest is zero, every month yields 0
    liters, and every month asks for [floor(800 * days * 1.2)] liters of
    storage, with 28 days in February. *)
Theorem zero_roof_area_plan (roof : pyval) (fs : dict pyval) (q rain rc : Q) :
  as_Q roof = Some q -> (q == 0)%Q ->
  dict_get fs "annual_rainfall_mm" = Some (PFloat rain) ->
  dict_get fs "runoff_coefficient" = Some (PFloat rc) ->
  exists plan annual,
    water_balance roof fs = Ok plan /\
    annual_harvestable plan = PFloat annual /\ (annual == 0)%Q /\
    py_int (annual_harvestable plan) = Ok 0 /\
    dict_get days_in_month "February" = Some 28 /\
    forall month share days,
      dict_get monthly_rainfall_distribution month = Some share ->
      dict_get days_in_month month = Some days ->
      dict_get (plan_harvestable plan) month = Some 0 /\
      dict_get (plan_storage plan) month =
        Some (Qfloor (inject_Z (800 * days) * 1.2)).
Proof.
  intros Hq Hz Hrain Hrc.
  pose proof (water_balance_eval roof fs q rain rc Hq Hrain Hrc) as Hw.
  cbn zeta in Hw.
  pose proof (annual_liters_zero q rain rc Hz) as Ha.
  eexists. exists (annual_liters q rain rc).
  split; [exact Hw|]. cbn [annual_harvestable plan_harvestable plan_storage].
  split; [reflexivity|]. split; [exact Ha|].
  split.
  { cbn [py_int as_num]. rewrite (Qtrunc_comp _ _ Ha). reflexivity. }
  split; [reflexivity|].
  intros month share days Hshare Hdays.
  rewrite (dict_get_map (fun _ s => month_harvest _ s)).
  rewrite (dict_get_map (fun m s => month_storage _ s (days_of m))).
  rewrite Hshare. cbn [option_map]. rewrite (days_of_get _ _ Hdays).
  rewrite (month_harvest_zero _ _ Ha). split; [reflexivity|].
  rewrite (month_storage_zero _ _ _ Ha); [reflexivity|].
  unfold days_in_month in Hdays. cbn [dict_get] in Hdays.
  repeat match type of Hdays with
         | (if ?c then _ else _) = _ =>
             destruct c; [injection Hdays as <-; lia|]
         end.
  discriminate.
Qed.

(** C4 at a request value of [0] with 1200 mm and a coefficient of 0.8:
    January asks for 29760 liters and February for 26880. *)
Lemma zero_roof_area_plan_witness :
  exists plan,
    water_balance (PInt 0)
      [ ("annual_rainfall_mm", PFloat 1200); ("runoff_coefficient", PFloat 0.8) ]
      = Ok plan /\
    py_int (annual_harvestable plan) = Ok 0 /\
    dict_get (plan_harvestable plan) "July" = Some 0 /\
    dict_get (plan_storage plan) "January" = Some 29760 /\
    dict_get (plan_storage plan) "February" = Some 26880.
Proof.
  destruct (zero_roof_area_plan (PInt 0)
              [ ("annual_rainfall_mm", PFloat 1200);
                ("runoff_coefficient", PFloat 0.8) ] 0 1200 0.8
              eq_refl (Qeq_refl 0) eq_refl eq_refl)
    as (plan & annual & Hw & _ & _ & Hint & _ & Hm).
  exists plan. split; [exact Hw|]. split; [exact Hint|].
  split; [exact (proj1 (Hm "July" 0.25%Q 31 eq_refl eq_refl))|].
  split.
  - exact (proj2 (Hm "January" 0.01%Q 31 eq_refl eq_refl)).
  - exact (proj2 (Hm "February" 0.01%Q 28 eq_refl eq_refl)).
Defined.

(** ** Rejected requests (C5, C6, C10) *)

Lemma feature_deriver_not_num (env : environment) (data weather : dict pyval) :
  as_num (get data "roof_area_m2") = None ->
  exists e, feature_deriver env data weather = Raise e.
Proof.
  intros Hn. destruct (feature_deriver env data weather) as [[roof fs]|e] eqn:E;
    [|eauto].
  apply feature_deriver_inv in E. destruct E as (-> & _ & _ & q & _ & _ & Hq & _).
  unfold as_Q in Hq. rewrite Hn in Hq. discriminate.
Qed.

Lemma predict_not_num (env : environment) (data : dict pyval) :
  as_num (get data "roof_area_m2") = None ->
  rejected (predict env (PDict data)).
Proof.
  intros Hn. unfold rejected, predict, predict_body. cbn [bind].
  destruct (feature_deriver_not_num env data
              (get_comprehensive_weather_data env (get data "latitude")
                 (get data "longitude")) Hn) as (e & ->).
  cbn [bind]. eauto.
Qed.





(** C6 fails on the code.  An unparsable [runoff_coefficient] aborts the
    request with the [ValueError] of the [float] that stands outside the
    coercion loop, and an unparsable [roof_area_m2] aborts it with the
    [TypeError] of the multiplication of the raw value; an unparsable
    [clay_pct], which only the loop converts, is answered. *)
Theorem unparsable_field_aborts :
  predict (sample_env default_weather) request_bad_runoff = Http500 ValueError /\
  predict (sample_env default_weather) request_bad_roof = Http500 TypeError /\
  answered (predict (sample_env default_weather) request_bad_clay).
Proof.
  split; [reflexivity|]. split; [reflexivity|].
  eexists. vm_compute. reflexivity.
Qed.

Lemma get_of_dict_get (data : dict pyval) (k : string) (v : pyval) :
  dict_get data k = Some v -> get data k = v.
Proof. unfold get, get_or. now intros ->. Qed.

(** C10.  When [roof_area_m2] arrives as a string, every request is
    rejected: the liters per year, the runoff recomputed from a zero
    feature and the whole water balance raise [TypeError] on the raw
    value, while the coercion loop has stored the parsed float, or 0.0,
    in the feature dictionary. *)
Theorem text_roof_area_is_rejected (env : environment) (data : dict pyval)
    (s : string) :
  dict_get data "roof_area_m2" = Some (PStr s) ->
  rejected (predict env (PDict data)) /\
  (forall fs rain,
     dict_get fs "annual_rainfall_mm" = Some (PFloat rain) ->
     annual_harvestable_liters (PStr s) fs = Raise TypeError /\
     water_balance (PStr s) fs = Raise TypeError /\
     (dict_get fs "annual_runoff_m3" = Some (PFloat 0) ->
      annual_runoff (PStr s) fs = Raise TypeError)) /\
  (forall weather latitude longitude roof_type space fs0 fs,
     initial_features env data weather latitude longitude roof_type
       (get data "roof_area_m2") space = Ok fs0 ->
     coerce_numeric env fs0 = Ok fs ->
     dict_get fs "roof_area_m2" =
       Some (PFloat match float_of_string env s with
                    | Some q => q
                    | None => 0%Q
                    end)).
Proof.
  intros Hs. pose proof (get_of_dict_get _ _ _ Hs) as Hg.
  split; [|split].
  - apply predict_not_num. now rewrite Hg.
  - intros fs rain Hrain.
    assert (Ha : annual_harvestable_liters (PStr s) fs = Raise TypeError).
    { unfold annual_harvestable_liters, dict_index. rewrite Hrain. reflexivity. }
    split; [exact Ha|]. split.
    + unfold water_balance. now rewrite Ha.
    + intros Hzero. unfold annual_runoff, dict_index.
      rewrite Hzero, Hrain. reflexivity.
  - intros weather latitude longitude roof_type space fs0 fs H0 Hc.
    apply initial_features_inv in H0.
    destruct H0 as (rain0 & rc & _ & _ & _ & _ & Hroof & _).
    destruct (coerce_numeric_lookup env fs0) as (fs' & Hrun & Hget).
    rewrite Hrun in Hc. injection Hc as <-.
    rewrite (Hget "roof_area_m2"), Hroof, Hg. cbn.
    unfold coerced. cbn. now destruct (float_of_string env s).
Qed.

(** C10 at ["100"], which parses: status 500, though the feature is
    100.0. *)
Lemma text_roof_area_is_rejected_witness :
  predict (sample_env default_weather) request_text_roof = Http500 TypeError /\
  rejected (predict (sample_env default_weather) request_text_roof) /\
  float_of_string (sample_env default_weather) "100" = Some 100%Q.
Proof.
  split; [reflexivity|]. split; [|reflexivity].
  exact (proj1 (text_roof_area_is_rejected (sample_env default_weather)
                  [ ("latitude", PFloat 28.6); ("longitude", PFloat 77.2);
                    ("roof_type", PStr "concrete");
                    ("roof_area_m2", PStr "100") ] "100" eq_refl)).
Defined.

(** ** Seasons and monsoon intensity *)

Example seasonality_july :
  _calculate_seasonality 7 default_weather =
    [ ("current_season", PStr "Monsoon");
      ("recharge_factor", PFloat 1.5);
      ("seasonal_rainfall_adjustment", PFloat 1.5) ].
Proof. reflexivity. Qed.

Example monsoon_intensity_1600 :
  _calculate_monsoon_intensity [ ("annual_rainfall_mm", PInt 1600) ] =
    [ ("monsoon_intensity", PStr "High");
      ("intensity_score", PFloat 0.7);
      ("peak_rainfall_capacity", PInt 50);
      ("annual_rainfall_classification", PStr "High") ].
Proof. reflexivity. Qed.

(** The thresholds are strict: 2000 mm is "High", not "Very High". *)
Example monsoon_intensity_2000 :
  dict_get (_calculate_monsoon_intensity [ ("annual_rainfall_mm", PInt 2000) ])
    "monsoon_intensity" = Some (PStr "High").
Proof. reflexivity. Qed.

(** A rainfall that is not a number gives the fallback of the [except]. *)
Example monsoon_intensity_text :
  _calculate_monsoon_intensity [ ("annual_rainfall_mm", PStr "1600") ] =
    [ ("monsoon_intensity", PStr "Unknown"); ("intensity_score", PFloat 0.5) ].
Proof. reflexivity. Qed.

(** ** The clock (C8) *)

(** C8 as the specification words it fails: the same weather record
    gives two different results when the clock shows July and when it
    shows January. *)
Lemma recharge_metrics_read_the_clock :
  dict_get (_calculate_recharge_metrics 7 default_weather)
    "recharge_seasonality" =
    Some (PDict [ ("current_season", PStr "Monsoon");
                  ("recharge_factor", PFloat 1.5);
                  ("seasonal_rainfall_adjustment", PFloat 1.5) ]) /\
  dict_get (_calculate_recharge_metrics 1 default_weather)
    "recharge_seasonality" =
    Some (PDict [ ("current_season", PStr "Winter");
                  ("recharge_factor", PFloat 0.5);
                  ("seasonal_rainfall_adjustment", PFloat 0.5) ]).
Proof. split; reflexivity. Qed.

Lemma recharge_metrics_shape (month : Z) (data : dict pyval) :
  _calculate_recharge_metrics month data = [] \/
  exists r1 r2 r3,
    _calculate_recharge_metrics month data =
      [ ("evaporation_rate_mmday", r1);
        ("infiltration_potential", r2);
        ("recharge_efficiency", r3);
        ("recharge_seasonality", PDict (_calculate_seasonality month data));
        ("monsoon_intensity", PDict (_calculate_monsoon_intensity data)) ] /\
    forall month',
      _calculate_recharge_metrics month' data =
        [ ("evaporation_rate_mmday", r1);
          ("infiltration_potential", r2);
          ("recharge_efficiency", r3);
          ("recharge_seasonality", PDict (_calculate_seasonality month' data));
          ("monsoon_intensity", PDict (_calculate_monsoon_intensity data)) ].
Proof.
  unfold _calculate_recharge_metrics.
  destruct (recharge_numbers data) as [[[e i] r]|]; cbn [bind]; auto.
  destruct (py_round e 2) as [r1|]; cbn [bind]; auto.
  destruct (py_round i 3) as [r2|]; cbn [bind]; auto.
  destruct (py_round r 3) as [r3|]; cbn [bind]; auto.
  right. exists r1, r2, r3. split; auto.
Qed.

(** C8, as the code has it.  The Recharge-Metrics Estimator is a function
    of the weather record and of the month the system clock shows: every
    entry other than [recharge_seasonality] is the same whatever the
    clock, and the whole result is the same at two readings of the clock
    that fall in the same season.  The Feature Deriver consults nothing
    but the request, the weather record and the parser of [float]; the
    answer of the handler, water balance included, is fixed by the
    request and by the answers of its collaborators. *)
Theorem only_seasonality_reads_the_clock (month1 month2 : Z)
    (data : dict pyval) :
  (forall key,
     key <> "recharge_seasonality" ->
     dict_get (_calculate_recharge_metrics month1 data) key =
     dict_get (_calculate_recharge_metrics month2 data) key) /\
  (_calculate_seasonality month1 data = _calculate_seasonality month2 data ->
   _calculate_recharge_metrics month1 data =
   _calculate_recharge_metrics month2 data) /\
  (forall env env' request weather,
     (forall s, float_of_string env s = float_of_string env' s) ->
     feature_deriver env request weather =
     feature_deriver env' request weather) /\
  (forall env env' req,
     same_answers env env' -> predict env req = predict env' req).
Proof.
  assert (Hrest :
    (forall env env' request weather,
       (forall s, float_of_string env s = float_of_string env' s) ->
       feature_deriver env request weather =
       feature_deriver env' request weather) /\
    (forall env env' req,
       same_answers env env' -> predict env req = predict env' req)).
  { split.
    - intros env env' request weather. apply feature_deriver_ext.
    - intros env env' req. apply predict_ext. }
  destruct (recharge_metrics_shape month1 data) as [E|(r1 & r2 & r3 & E & Eall)].
  - assert (E2 : _calculate_recharge_metrics month2 data = []).
    { revert E. unfold _calculate_recharge_metrics.
      destruct (recharge_numbers data) as [[[e i] r]|]; cbn [bind]; auto.
      destruct (py_round e 2); cbn [bind]; auto.
      destruct (py_round i 3); cbn [bind]; auto.
      destruct (py_round r 3); cbn [bind]; auto. discriminate. }
    rewrite E, E2. split; [auto|]. split; [auto|exact Hrest].
  - rewrite E, (Eall month2). split; [|split; [|exact Hrest]].
    + intros key Hk. cbn [dict_get].
      destruct (String.eqb "evaporation_rate_mmday" key); auto.
      destruct (String.eqb "infiltration_potential" key); auto.
      destruct (String.eqb "recharge_efficiency" key); auto.
      destruct (String.eqb "recharge_seasonality" key) eqn:Ek; auto.
      apply String.eqb_eq in Ek. congruence.
    + now intros ->.
Qed.

(** ** Recharge metrics (C7) *)






















(** ** Monotonicity in the roof area (C9) *)





